(** * 10X serial dilution protocol for the OT-2 (ot-2_fast_10x_serial_dilution.py)

    Shallow embedding of the protocol script.  The script issues calls to
    the Opentrons protocol API; we record every call the script makes as an
    [event] of a trace.  Python exceptions ([sys.exit()], an out-of-range
    list index) stop the script and are the error side of the monad.  The
    two Python lists [dilutionplate_10X] and [tiprack_10X], which the nested
    [switch] functions append to through their closure, are the state. *)

From Stdlib Require Import String List ZArith QArith Bool Lia.
Import ListNotations.
Open Scope string_scope.
Open Scope Z_scope.
Open Scope list_scope.

(** ** Data *)

(** A labware handle returned by [protocol.load_labware(type, slot)]. *)
Record labware := mk_labware { lw_name : string; lw_slot : Z }.

(** A well [plate.columns()[c][r]]. *)
Record well := mk_well { well_labware : labware; well_column : nat; well_row : nat }.

(** Calls to the protocol API (and [print]) as they appear in the trace. *)
Inductive event :=
| Print (msg : string)
| LoadLabware (name : string) (slot : Z)
| LoadInstrument (model mount : string) (tip_racks : list labware)
| PickUpTip
| DropTip
| Aspirate (volume : Z) (location : well)
| Dispense (volume : Z) (location : well)
| Mix (repetitions volume : Z) (location : option well) (rate : Q).

(** The rate [pipette.mix] uses when no [rate] argument is given (1.0). *)
Definition default_mix_rate : Q := 1.

(** Python exceptions that can stop the script. *)
Inductive exn :=
| SystemExit (code : option Z)
| IndexError
| TypeError.

(** Process exit status of a script run: [sys.exit()] with no argument (or
    [None]) exits with 0, [sys.exit(n)] with n, an uncaught exception with 1,
    and a normal end of the script with 0. *)
Definition exit_status {A} (r : exn + A) : Z :=
  match r with
  | inr _ => 0
  | inl (SystemExit None) => 0
  | inl (SystemExit (Some n)) => n
  | inl _ => 1
  end.

(** The two lists of [run], [dilutionplate_10X] and [tiprack_10X]. *)
Record St := mk_st { dilutionplate_10X : list labware; tiprack_10X : list labware }.

Definition empty_st : St := mk_st [] [].

(** ** The state / trace / exception monad *)

Definition M (A : Type) : Type := St -> list event * (exn + (A * St)).

Definition ret {A} (a : A) : M A := fun s => ([], inr (a, s)).

Definition bind {A B} (m : M A) (f : A -> M B) : M B :=
  fun s =>
    match m s with
    | (t, inl e) => (t, inl e)
    | (t, inr (a, s')) => let (t', r) := f a s' in (t ++ t', r)
    end.

Notation "x <- m ;; k" := (bind m (fun x => k))
  (at level 61, m at next level, right associativity).
Notation "m ;; k" := (bind m (fun _ => k))
  (at level 61, right associativity).

Definition emit (e : event) : M unit := fun s => ([e], inr (tt, s)).

Definition raise {A} (e : exn) : M A := fun s => ([], inl e).

Definition get : M St := fun s => ([], inr (s, s)).

Definition put (s : St) : M unit := fun _ => ([], inr (tt, s)).

(** [print(msg)] *)
Definition print (msg : string) : M unit := emit (Print msg).

(** [sys.exit()] *)
Definition sys_exit {A} : M A := raise (SystemExit None).

(** Python list indexing [l[i]] for a non-negative index. *)
Definition py_index {A} (l : list A) (i : nat) : M A :=
  match nth_error l i with
  | Some x => ret x
  | None => raise IndexError
  end.

(** [for x in l: body(x)] *)
Fixpoint for_ {A} (l : list A) (body : A -> M unit) : M unit :=
  match l with
  | [] => ret tt
  | x :: r => body x ;; for_ r body
  end.

(** [range(n)] *)
Definition range (n : Z) : list nat := seq 0 (Z.to_nat n).

(** ** Protocol API *)

Definition load_labware (name : string) (slot : Z) : M labware :=
  emit (LoadLabware name slot) ;; ret (mk_labware name slot).

Definition load_instrument (model mount : string) (tip_racks : list labware) : M unit :=
  emit (LoadInstrument model mount tip_racks).

(** Both labware types the protocol loads are in the 96 format: 12 columns
    of 8 wells; [columns()] lists them column by column. *)
Definition columns (lw : labware) : list (list well) :=
  map (fun c => map (fun r => mk_well lw c r) (seq 0 8)) (seq 0 12).

Definition append_plate (lw : labware) : M unit :=
  s <- get ;; put (mk_st (dilutionplate_10X s ++ [lw]) (tiprack_10X s)).

Definition append_tiprack (lw : labware) : M unit :=
  s <- get ;; put (mk_st (dilutionplate_10X s) (tiprack_10X s ++ [lw])).

(** [dilutionplate_10X[i].columns()[j][0]] *)
Definition plate_well (i j : nat) : M well :=
  s <- get ;;
  pl <- py_index (dilutionplate_10X s) i ;;
  col <- py_index (columns pl) j ;;
  py_index col 0.

(** [pipette.pick_up_tip()], [pipette.drop_tip()], [pipette.aspirate(v, w)],
    [pipette.dispense(v, w)] and [pipette.mix(reps, vol, location, rate)]. *)
Definition pick_up_tip : M unit := emit PickUpTip.
Definition drop_tip : M unit := emit DropTip.
Definition aspirate (v : Z) (w : well) : M unit := emit (Aspirate v w).
Definition dispense (v : Z) (w : well) : M unit := emit (Dispense v w).
Definition mix (reps vol : Z) (loc : option well) (rate : Q) : M unit :=
  emit (Mix reps vol loc rate).

(** ** The script *)

(** The constants of the "Protocol Parameters Section" of [run]. *)
Record params := mk_params {
  tiprack_type : string;
  plate_type : string;
  pipette_type : string;
  dilution_volume : Z;
  mix_repetitions : Z;
  mix_volume : Z;
  mix_rate : Q
}.

Definition source_params : params := {|
  tiprack_type := "opentrons_96_filtertiprack_200ul";
  plate_type := "corning_96_wellplate_360ul_flat";
  pipette_type := "p300_multi_gen2";
  dilution_volume := 20;
  mix_repetitions := 15;
  mix_volume := 20;
  mix_rate := 1
|}.

(** The module-level constants [instances] and [filled_columns] as shipped. *)
Definition source_instances : Z := 0.
Definition source_filled_columns : Z := 6.

Definition too_many_columns_msg : string :=
  "ERROR: Too many columns need to be filled for the number of tipracks available. Program exiting.".

Definition instances_range_msg : string :=
  "ERROR: Must set instances variable as integer between 1 and 6 inclusive. Program exiting.".

(** The module-level check (lines 27-30). *)
Definition module_check (instances filled_columns : Z) : M unit :=
  if (instances =? 6) && (filled_columns >? 10) then
    print too_many_columns_msg ;; sys_exit
  else ret tt.

(** [how_many(num)] *)
Definition how_many (num : Z) : M string :=
  if num =? 6 then ret "six"
  else if num =? 5 then ret "five"
  else if num =? 4 then ret "four"
  else if num =? 3 then ret "three"
  else if num =? 2 then ret "two"
  else if num =? 1 then ret "one"
  else print instances_range_msg ;; ret "default".

(** The methods of [class switch]; each falls through to the next smaller
    count after its own loads. *)
Section Switch.
Variable p : params.

Definition switch_one : M unit :=
  tiprack_10X_1 <- load_labware (tiprack_type p) 8 ;;
  append_tiprack tiprack_10X_1 ;;
  dilutionplate_10X_1 <- load_labware (plate_type p) 9 ;;
  append_plate dilutionplate_10X_1.

Definition switch_two : M unit :=
  tiprack_10X_2 <- load_labware (tiprack_type p) 10 ;;
  append_tiprack tiprack_10X_2 ;;
  dilutionplate_10X_2 <- load_labware (plate_type p) 11 ;;
  append_plate dilutionplate_10X_2 ;;
  switch_one.

Definition switch_three : M unit :=
  tiprack_10X_3 <- load_labware (tiprack_type p) 4 ;;
  append_tiprack tiprack_10X_3 ;;
  dilutionplate_10X_3 <- load_labware (plate_type p) 7 ;;
  append_plate dilutionplate_10X_3 ;;
  switch_two.

Definition switch_four : M unit :=
  tiprack_10X_4 <- load_labware (tiprack_type p) 6 ;;
  append_tiprack tiprack_10X_4 ;;
  dilutionplate_10X_4 <- load_labware (plate_type p) 5 ;;
  append_plate dilutionplate_10X_4 ;;
  switch_three.

Definition switch_five : M unit :=
  tiprack_10X_5 <- load_labware (tiprack_type p) 2 ;;
  append_tiprack tiprack_10X_5 ;;
  dilutionplate_10X_5 <- load_labware (plate_type p) 3 ;;
  append_plate dilutionplate_10X_5 ;;
  switch_four.

Definition switch_six : M unit :=
  dilutionplate_10X_6 <- load_labware (plate_type p) 1 ;;
  append_plate dilutionplate_10X_6 ;;
  switch_five.

Definition switch_default : M unit := sys_exit.

(** [getattr(switch, name, 'default')()]: an attribute that is missing
    yields the string ['default'], and calling a string is a [TypeError]. *)
Definition getattr_switch_call (name : string) : M unit :=
  if String.eqb name "six" then switch_six
  else if String.eqb name "five" then switch_five
  else if String.eqb name "four" then switch_four
  else if String.eqb name "three" then switch_three
  else if String.eqb name "two" then switch_two
  else if String.eqb name "one" then switch_one
  else if String.eqb name "default" then switch_default
  else raise TypeError.

End Switch.

(** Layout selection: line 155. *)
Definition select_layout (p : params) (instances : Z) : M unit :=
  name <- how_many instances ;; getattr_switch_call p name.

(** One iteration [j] of the inner loop (lines 190-196). *)
Definition column_transfer (p : params) (i j : nat) : M unit :=
  pick_up_tip ;;
  src <- plate_well i j ;;
  aspirate (dilution_volume p) src ;;
  dst <- plate_well i (S j) ;;
  dispense (dilution_volume p) dst ;;
  mix (mix_repetitions p) (mix_volume p) None (mix_rate p) ;;
  drop_tip.

(** One iteration [i] of the outer loop (lines 184-196). *)
Definition instance_run (p : params) (filled_columns : Z) (i : nat) : M unit :=
  pick_up_tip ;;
  w <- plate_well i 0 ;;
  mix (mix_repetitions p) (mix_volume p) (Some w) default_mix_rate ;;
  drop_tip ;;
  for_ (range (filled_columns - 1)) (column_transfer p i).

(** [run(protocol)] *)
Definition run (p : params) (instances filled_columns : Z) : M unit :=
  put empty_st ;;
  select_layout p instances ;;
  s <- get ;;
  load_instrument (pipette_type p) "right" (tiprack_10X s) ;;
  for_ (range instances) (instance_run p filled_columns).

(** Loading the module, then the robot runtime calling [run]. *)
Definition program (p : params) (instances filled_columns : Z) : M unit :=
  module_check instances filled_columns ;; run p instances filled_columns.

(** The trace and the outcome of a whole run. *)
Definition trace_of (p : params) (instances filled_columns : Z) : list event :=
  fst (program p instances filled_columns empty_st).

Definition outcome_of (p : params) (instances filled_columns : Z) : exn + (unit * St) :=
  snd (program p instances filled_columns empty_st).

(** The state after the layout selection for a count. *)
Definition layout_state (p : params) (instances : Z) : option St :=
  match snd (select_layout p instances empty_st) with
  | inr (_, s) => Some s
  | inl _ => None
  end.

Definition layout_trace (p : params) (instances : Z) : list event :=
  fst (select_layout p instances empty_st).


Close Scope string_scope.

(** ** Events of one instance, as the loops emit them *)

(** The mix-only cycle on column 0 (lines 184-187). *)
Definition first_column_events (p : params) (pl : labware) : list event :=
  [PickUpTip; Mix (mix_repetitions p) (mix_volume p) (Some (mk_well pl 0 0)) default_mix_rate;
   DropTip].

(** One column transfer (lines 190-196). *)
Definition transfer_events (p : params) (pl : labware) (j : nat) : list event :=
  [PickUpTip; Aspirate (dilution_volume p) (mk_well pl j 0);
   Dispense (dilution_volume p) (mk_well pl (S j) 0);
   Mix (mix_repetitions p) (mix_volume p) None (mix_rate p); DropTip].

Definition instance_events (p : params) (filled_columns : Z) (pl : labware) : list event :=
  first_column_events p pl ++ List.concat (map (transfer_events p pl) (range (filled_columns - 1))).

(** When more than 12 columns are to be filled, the transfer from column 11
    to column 12 aspirates and then fails on [columns()[12]]. *)
Definition instance_overflow_events (p : params) (pl : labware) : list event :=
  first_column_events p pl ++ List.concat (map (transfer_events p pl) (seq 0 11))
  ++ [PickUpTip; Aspirate (dilution_volume p) (mk_well pl 11 0)].

(** ** Lemmas on the monad and the loops *)

Lemma bind_inr {A B} (m : M A) (f : A -> M B) s t a s' :
  m s = (t, inr (a, s')) ->
  bind m f s = (t ++ fst (f a s'), snd (f a s')).
Proof.
  intros H. unfold bind. rewrite H. destruct (f a s'). reflexivity.
Qed.

Lemma bind_inl {A B} (m : M A) (f : A -> M B) s t e :
  m s = (t, inl e) -> bind m f s = (t, inl e).
Proof. intros H. unfold bind. rewrite H. reflexivity. Qed.

Lemma for_nil {A} (b : A -> M unit) s : for_ [] b s = ([], inr (tt, s)).
Proof. reflexivity. Qed.

Lemma for_cons_inr {A} (x : A) l b s t :
  b x s = (t, inr (tt, s)) ->
  for_ (x :: l) b s = (t ++ fst (for_ l b s), snd (for_ l b s)).
Proof. intros H. simpl. exact (bind_inr (b x) (fun _ => for_ l b) _ _ _ _ H). Qed.

Lemma for_cons_inl {A} (x : A) l b s t e :
  b x s = (t, inl e) -> for_ (x :: l) b s = (t, inl e).
Proof. intros H. simpl. exact (bind_inl (b x) (fun _ => for_ l b) _ _ _ H). Qed.

Lemma for_all_inr {A} (l : list A) (b : A -> M unit) (f : A -> list event) s :
  (forall x, In x l -> b x s = (f x, inr (tt, s))) ->
  for_ l b s = (List.concat (map f l), inr (tt, s)).
Proof.
  induction l as [|x l IH]; intros H; [reflexivity|].
  rewrite (for_cons_inr x l b s (f x)) by (apply H; left; reflexivity).
  rewrite IH by (intros y Hy; apply H; right; exact Hy). reflexivity.
Qed.

Lemma for_app_inr {A} (l1 l2 : list A) (b : A -> M unit) (f : A -> list event) s :
  (forall x, In x l1 -> b x s = (f x, inr (tt, s))) ->
  for_ (l1 ++ l2) b s = (List.concat (map f l1) ++ fst (for_ l2 b s), snd (for_ l2 b s)).
Proof.
  induction l1 as [|x l1 IH]; intros H; [simpl; destruct (for_ l2 b s); reflexivity|].
  simpl app. rewrite (for_cons_inr x (l1 ++ l2) b s (f x)) by (apply H; left; reflexivity).
  rewrite IH by (intros y Hy; apply H; right; exact Hy).
  simpl. rewrite app_assoc. reflexivity.
Qed.

Lemma nth_error_columns (pl : labware) (j : nat) :
  (j < 12)%nat -> exists col, nth_error (columns pl) j = Some col /\ nth_error col 0 = Some (mk_well pl j 0).
Proof.
  intros Hj. unfold columns. rewrite nth_error_map, nth_error_seq.
  destruct (Nat.ltb_spec j 12); [|lia]. simpl. eexists. split; reflexivity.
Qed.

Lemma nth_error_columns_out (pl : labware) (j : nat) :
  (12 <= j)%nat -> nth_error (columns pl) j = None.
Proof.
  intros Hj. unfold columns. rewrite nth_error_map, nth_error_seq.
  destruct (Nat.ltb_spec j 12); [lia|]. reflexivity.
Qed.

Lemma plate_well_in s i j pl :
  nth_error (dilutionplate_10X s) i = Some pl -> (j < 12)%nat ->
  plate_well i j s = ([], inr (mk_well pl j 0, s)).
Proof.
  intros Hi Hj. destruct (nth_error_columns pl j Hj) as (col & Hc & H0).
  unfold plate_well, bind, get, py_index. rewrite Hi. unfold ret. rewrite Hc.
  rewrite H0. reflexivity.
Qed.

Lemma plate_well_out s i j pl :
  nth_error (dilutionplate_10X s) i = Some pl -> (12 <= j)%nat ->
  plate_well i j s = ([], inl IndexError).
Proof.
  intros Hi Hj. unfold plate_well, bind, get, py_index. rewrite Hi. unfold ret.
  rewrite (nth_error_columns_out pl j Hj). reflexivity.
Qed.

Lemma column_transfer_in p s i j pl :
  nth_error (dilutionplate_10X s) i = Some pl -> (j < 11)%nat ->
  column_transfer p i j s = (transfer_events p pl j, inr (tt, s)).
Proof.
  intros Hi Hj. unfold column_transfer, bind at 1, pick_up_tip, emit.
  unfold bind. rewrite (plate_well_in s i j pl Hi) by lia.
  unfold aspirate, emit. rewrite (plate_well_in s i (S j) pl Hi) by lia.
  reflexivity.
Qed.

Lemma column_transfer_last p s i pl :
  nth_error (dilutionplate_10X s) i = Some pl ->
  column_transfer p i 11 s =
    ([PickUpTip; Aspirate (dilution_volume p) (mk_well pl 11 0)], inl IndexError).
Proof.
  intros Hi. unfold column_transfer, bind at 1, pick_up_tip, emit.
  unfold bind. rewrite (plate_well_in s i 11 pl Hi) by lia.
  unfold aspirate, emit. rewrite (plate_well_out s i 12 pl Hi) by lia.
  reflexivity.
Qed.

Lemma inner_loop_in p s i pl k :
  nth_error (dilutionplate_10X s) i = Some pl -> (k <= 11)%nat ->
  for_ (seq 0 k) (column_transfer p i) s =
    (List.concat (map (transfer_events p pl) (seq 0 k)), inr (tt, s)).
Proof.
  intros Hi Hk. apply for_all_inr. intros j Hj. apply in_seq in Hj.
  apply column_transfer_in; [exact Hi | lia].
Qed.

Lemma inner_loop_out p s i pl k :
  nth_error (dilutionplate_10X s) i = Some pl -> (12 <= k)%nat ->
  for_ (seq 0 k) (column_transfer p i) s =
    (List.concat (map (transfer_events p pl) (seq 0 11))
       ++ [PickUpTip; Aspirate (dilution_volume p) (mk_well pl 11 0)], inl IndexError).
Proof.
  intros Hi Hk.
  replace k with (11 + S (k - 12))%nat by lia. rewrite seq_app.
  rewrite (for_app_inr _ _ _ (transfer_events p pl))
    by (intros j Hj; apply in_seq in Hj; apply column_transfer_in; [exact Hi | lia]).
  simpl (seq (0 + 11) _).
  rewrite (for_cons_inl _ _ _ _ _ _ (column_transfer_last p s i pl Hi)). reflexivity.
Qed.

Lemma instance_run_in p fc s i pl :
  nth_error (dilutionplate_10X s) i = Some pl -> (Z.to_nat (fc - 1) <= 11)%nat ->
  instance_run p fc i s = (instance_events p fc pl, inr (tt, s)).
Proof.
  intros Hi Hk. unfold instance_run, bind, pick_up_tip, mix, drop_tip, emit.
  rewrite (plate_well_in s i 0 pl Hi) by lia.
  unfold range. rewrite (inner_loop_in p s i pl _ Hi Hk). reflexivity.
Qed.

Lemma instance_run_out p fc s i pl :
  nth_error (dilutionplate_10X s) i = Some pl -> (12 <= Z.to_nat (fc - 1))%nat ->
  instance_run p fc i s = (instance_overflow_events p pl, inl IndexError).
Proof.
  intros Hi Hk. unfold instance_run, bind, pick_up_tip, mix, drop_tip, emit.
  rewrite (plate_well_in s i 0 pl Hi) by lia.
  unfold range. rewrite (inner_loop_out p s i pl _ Hi Hk). reflexivity.
Qed.

Lemma outer_loop_in_gen p fc s :
  (Z.to_nat (fc - 1) <= 11)%nat ->
  forall l pre, dilutionplate_10X s = pre ++ l ->
  for_ (seq (length pre) (length l)) (instance_run p fc) s =
    (List.concat (map (instance_events p fc) l), inr (tt, s)).
Proof.
  intros Hk l. induction l as [|x l IH]; intros pre Hs; [reflexivity|].
  simpl length. rewrite <- cons_seq.
  assert (Hx : nth_error (dilutionplate_10X s) (length pre) = Some x).
  { rewrite Hs, nth_error_app2, Nat.sub_diag by lia. reflexivity. }
  rewrite (for_cons_inr _ _ _ _ _ (instance_run_in p fc s _ x Hx Hk)).
  replace (S (length pre)) with (length (pre ++ [x]))
    by (rewrite length_app; simpl; lia).
  rewrite (IH (pre ++ [x])) by (rewrite Hs, <- app_assoc; reflexivity).
  reflexivity.
Qed.

Lemma outer_loop_in p fc s :
  (Z.to_nat (fc - 1) <= 11)%nat ->
  for_ (seq 0 (length (dilutionplate_10X s))) (instance_run p fc) s =
    (List.concat (map (instance_events p fc) (dilutionplate_10X s)), inr (tt, s)).
Proof.
  intros Hk. exact (outer_loop_in_gen p fc s Hk _ [] eq_refl).
Qed.

Lemma outer_loop_out p fc s pl l :
  (12 <= Z.to_nat (fc - 1))%nat -> dilutionplate_10X s = pl :: l ->
  for_ (seq 0 (length (dilutionplate_10X s))) (instance_run p fc) s =
    (instance_overflow_events p pl, inl IndexError).
Proof.
  intros Hk Hs. rewrite Hs. simpl length. simpl seq.
  apply for_cons_inl. apply instance_run_out; [rewrite Hs; reflexivity | exact Hk].
Qed.

(** ** The layout selection and the whole program *)

Lemma count_cases (N : Z) : 1 <= N <= 6 ->
  N = 1 \/ N = 2 \/ N = 3 \/ N = 4 \/ N = 5 \/ N = 6.
Proof. lia. Qed.

Lemma select_layout_valid p N :
  1 <= N <= 6 ->
  exists s, select_layout p N empty_st = (layout_trace p N, inr (tt, s))
            /\ layout_state p N = Some s
            /\ length (dilutionplate_10X s) = Z.to_nat N.
Proof.
  intros HN. unfold layout_state, layout_trace.
  destruct (count_cases N HN) as [ -> | [ -> | [ -> | [ -> | [ -> | -> ]]]]];
    eexists; (split; [cbv; reflexivity | split; reflexivity]).
Qed.

Lemma how_many_invalid N :
  N < 1 \/ 6 < N -> how_many N empty_st = ([Print instances_range_msg], inr ("default"%string, empty_st)).
Proof.
  intros HN. unfold how_many.
  repeat match goal with
         | |- context [?a =? ?b] => replace (a =? b) with false by (symmetry; apply Z.eqb_neq; lia)
         end.
  reflexivity.
Qed.

Lemma program_invalid p N fc :
  N < 1 \/ 6 < N ->
  program p N fc empty_st = ([Print instances_range_msg], inl (SystemExit None)).
Proof.
  intros HN. unfold program.
  assert (Hm : module_check N fc empty_st = ([], inr (tt, empty_st))).
  { unfold module_check. replace (N =? 6) with false by (symmetry; apply Z.eqb_neq; lia).
    reflexivity. }
  rewrite (bind_inr _ _ _ _ _ _ Hm). unfold run.
  rewrite (bind_inr (put empty_st) _ empty_st [] tt empty_st eq_refl).
  unfold select_layout.
  rewrite (bind_inl _ _ empty_st [Print instances_range_msg] (SystemExit None)).
  - reflexivity.
  - rewrite (bind_inr _ _ _ _ _ _ (how_many_invalid N HN)). reflexivity.
Qed.

Lemma program_too_many_columns p fc :
  10 < fc ->
  program p 6 fc empty_st = ([Print too_many_columns_msg], inl (SystemExit None)).
Proof.
  intros Hfc. unfold program, module_check.
  replace (fc >? 10) with true by (symmetry; apply Z.gtb_lt; lia).
  reflexivity.
Qed.

Lemma program_valid p N fc :
  1 <= N <= 6 -> ~ (N = 6 /\ 10 < fc) ->
  exists s, layout_state p N = Some s
    /\ length (dilutionplate_10X s) = Z.to_nat N
    /\ program p N fc empty_st =
       (layout_trace p N ++ LoadInstrument (pipette_type p) "right"%string (tiprack_10X s)
          :: fst (for_ (range N) (instance_run p fc) s),
        snd (for_ (range N) (instance_run p fc) s)).
Proof.
  intros HN Hx. destruct (select_layout_valid p N HN) as (s & Hsel & Hst & Hlen).
  exists s. split; [exact Hst|]. split; [exact Hlen|].
  assert (Hm : module_check N fc empty_st = ([], inr (tt, empty_st))).
  { unfold module_check.
    destruct (N =? 6) eqn:E6; [|reflexivity].
    destruct (fc >? 10) eqn:E10; [|reflexivity].
    apply Z.eqb_eq in E6. apply Z.gtb_lt in E10. exfalso; lia. }
  unfold program. rewrite (bind_inr _ _ _ _ _ _ Hm). unfold run.
  rewrite (bind_inr (put empty_st) _ empty_st [] tt empty_st eq_refl).
  rewrite (bind_inr _ _ _ _ _ _ Hsel).
  rewrite (bind_inr get _ s [] s s eq_refl).
  unfold load_instrument.
  rewrite (bind_inr (emit _) _ s _ tt s eq_refl).
  reflexivity.
Qed.

(** The whole run, when the instance count is valid and the module-level
    check passes. *)
Lemma program_valid_in p N fc :
  1 <= N <= 6 -> ~ (N = 6 /\ 10 < fc) -> (Z.to_nat (fc - 1) <= 11)%nat ->
  exists s, layout_state p N = Some s
    /\ length (dilutionplate_10X s) = Z.to_nat N
    /\ program p N fc empty_st =
       (layout_trace p N ++ LoadInstrument (pipette_type p) "right"%string (tiprack_10X s)
          :: List.concat (map (instance_events p fc) (dilutionplate_10X s)),
        inr (tt, s)).
Proof.
  intros HN Hx Hk. destruct (program_valid p N fc HN Hx) as (s & Hst & Hlen & Hp).
  exists s. split; [exact Hst|]. split; [exact Hlen|]. rewrite Hp.
  unfold range. rewrite <- Hlen, (outer_loop_in p fc s Hk). reflexivity.
Qed.

Lemma program_valid_out p N fc :
  1 <= N <= 6 -> ~ (N = 6 /\ 10 < fc) -> (12 <= Z.to_nat (fc - 1))%nat ->
  exists s pl l, layout_state p N = Some s
    /\ dilutionplate_10X s = pl :: l
    /\ program p N fc empty_st =
       (layout_trace p N ++ LoadInstrument (pipette_type p) "right"%string (tiprack_10X s)
          :: instance_overflow_events p pl,
        inl IndexError).
Proof.
  intros HN Hx Hk. destruct (program_valid p N fc HN Hx) as (s & Hst & Hlen & Hp).
  assert (Hs : exists pl l, dilutionplate_10X s = pl :: l).
  { destruct (dilutionplate_10X s) as [|pl l]; [simpl in Hlen; lia | eauto]. }
  destruct Hs as (pl & l & Hs).
  exists s, pl, l. split; [exact Hst|]. split; [exact Hs|]. rewrite Hp.
  unfold range. rewrite <- Hlen, (outer_loop_out p fc s pl l Hk Hs). reflexivity.
Qed.

(** ** Properties stated by the specification *)

(** Slots of the [load_labware] calls of a trace, in call order. *)
Definition load_slots (tr : list event) : list Z :=
  flat_map (fun e => match e with LoadLabware _ slot => [slot] | _ => [] end) tr.

(** C1 as written: N plates, N tipracks, no slot used twice. *)
Definition layout_claim (p : params) (N : Z) : Prop :=
  match layout_state p N with
  | Some s =>
      Z.of_nat (length (dilutionplate_10X s)) = N
      /\ Z.of_nat (length (tiprack_10X s)) = N
      /\ NoDup (load_slots (layout_trace p N))
      /\ length (load_slots (layout_trace p N))
         = (length (dilutionplate_10X s) + length (tiprack_10X s))%nat
  | None => False
  end.

(** Registered plates and tipracks for a count (empty when the count is
    rejected). *)
Definition layout_plates (p : params) (N : Z) : list labware :=
  match layout_state p N with Some s => dilutionplate_10X s | None => [] end.

Definition layout_tipracks (p : params) (N : Z) : list labware :=
  match layout_state p N with Some s => tiprack_10X s | None => [] end.

(** C5 as written: the first N-1 registrations for N are those for N-1. *)
Definition nesting_claim (p : params) (N : Z) : Prop :=
  firstn (Z.to_nat (N - 1)) (layout_plates p N) = layout_plates p (N - 1)
  /\ firstn (Z.to_nat (N - 1)) (layout_tipracks p N) = layout_tipracks p (N - 1).

(** Calls that are not [print]: loads and pipette commands. *)
Definition is_api_call (e : event) : bool :=
  match e with Print _ => false | _ => true end.

Definition is_pipette_call (e : event) : bool :=
  match e with
  | PickUpTip | DropTip | Aspirate _ _ | Dispense _ _ | Mix _ _ _ _ => true
  | _ => false
  end.

Lemma layout_trace_no_pipette p N :
  1 <= N <= 6 -> Forall (fun e => is_pipette_call e = false) (layout_trace p N).
Proof.
  intros HN.
  destruct (count_cases N HN) as [ -> | [ -> | [ -> | [ -> | [ -> | -> ]]]]];
    cbv; repeat constructor.
Qed.

(** *** C1 *)

Lemma layout_six_has_five_tipracks :
  ~ (forall p N, 1 <= N <= 6 -> layout_claim p N).
Proof.
  intros H. specialize (H source_params 6 ltac:(lia)).
  unfold layout_claim in H. cbv in H. destruct H as (_ & H & _). discriminate H.
Qed.

(** C1 (amended): for N in 1..6 the layout loads N plates and min(N,5)
    tipracks (the sixth plate has no tiprack of its own), one load per slot,
    every slot distinct and within 1..11. *)
Theorem layout_counts_and_distinct_slots p N :
  1 <= N <= 6 ->
  match layout_state p N with
  | Some s =>
      Z.of_nat (length (dilutionplate_10X s)) = N
      /\ Z.of_nat (length (tiprack_10X s)) = Z.min N 5
      /\ NoDup (load_slots (layout_trace p N))
      /\ length (load_slots (layout_trace p N))
         = (length (dilutionplate_10X s) + length (tiprack_10X s))%nat
      /\ Forall (fun z => 1 <= z <= 11) (load_slots (layout_trace p N))
  | None => False
  end.
Proof.
  intros HN.
  destruct (count_cases N HN) as [ -> | [ -> | [ -> | [ -> | [ -> | -> ]]]]];
    cbv -[Z.le]; (split; [reflexivity|]); (split; [reflexivity|]);
    (split; [repeat constructor; simpl; lia|]); (split; [reflexivity|]);
    repeat constructor; lia.
Qed.

Lemma layout_counts_and_distinct_slots_witness :
  1 <= 6 <= 6 /\
  match layout_state source_params 6 with
  | Some s =>
      Z.of_nat (length (dilutionplate_10X s)) = 6
      /\ Z.of_nat (length (tiprack_10X s)) = Z.min 6 5
      /\ NoDup (load_slots (layout_trace source_params 6))
      /\ length (load_slots (layout_trace source_params 6))
         = (length (dilutionplate_10X s) + length (tiprack_10X s))%nat
      /\ Forall (fun z => 1 <= z <= 11) (load_slots (layout_trace source_params 6))
  | None => False
  end.
Proof.
  split; [lia|]. apply (layout_counts_and_distinct_slots source_params 6). lia.
Defined.

(** *** C5 *)

Lemma nesting_first_entries_fails :
  ~ (forall p N, 2 <= N <= 6 -> nesting_claim p N).
Proof.
  intros H. specialize (H source_params 2 ltac:(lia)).
  unfold nesting_claim in H. cbv in H. destruct H as (H & _). discriminate H.
Qed.

(** C5 (amended): the registrations for N-1 are the LAST registrations for N:
    N's plate list minus its first entry, N's tiprack list minus its first
    entry (for N = 6, which loads no sixth tiprack, the whole list), and the
    loads for N-1 are a suffix of the loads for N. *)
Theorem layout_nesting_suffix p N :
  2 <= N <= 6 ->
  layout_plates p (N - 1) = skipn 1 (layout_plates p N)
  /\ layout_tipracks p (N - 1) = skipn (if N =? 6 then 0 else 1) (layout_tipracks p N)
  /\ exists pre, layout_trace p N = pre ++ layout_trace p (N - 1).
Proof.
  intros HN.
  assert (Hc : N = 2 \/ N = 3 \/ N = 4 \/ N = 5 \/ N = 6) by lia.
  destruct Hc as [ -> | [ -> | [ -> | [ -> | -> ]]]];
    (split; [reflexivity|]); (split; [reflexivity|]);
    [ exists (firstn 2 (layout_trace p 2)) | exists (firstn 2 (layout_trace p 3))
    | exists (firstn 2 (layout_trace p 4)) | exists (firstn 2 (layout_trace p 5))
    | exists (firstn 1 (layout_trace p 6)) ]; cbv; reflexivity.
Qed.

Lemma layout_nesting_suffix_witness :
  2 <= 3 <= 6 /\
  layout_plates source_params (3 - 1) = skipn 1 (layout_plates source_params 3)
  /\ layout_tipracks source_params (3 - 1)
     = skipn (if 3 =? 6 then 0 else 1) (layout_tipracks source_params 3)
  /\ exists pre, layout_trace source_params 3 = pre ++ layout_trace source_params (3 - 1).
Proof.
  split; [lia|]. apply (layout_nesting_suffix source_params 3). lia.
Defined.

(** *** C3 *)

Lemma count_six_many_columns_exits :
  ~ (forall p N fc, 1 <= N <= 6 -> forall c, outcome_of p N fc <> inl (SystemExit c)).
Proof.
  intros H. apply (H source_params 6 11 ltac:(lia) None).
  unfold outcome_of. rewrite program_too_many_columns by lia. reflexivity.
Qed.

(** C3 (amended): the script stops through [sys.exit()] exactly when the
    instance count is outside 1..6 or when the count is 6 and more than 10
    columns are to be filled; in both cases its whole trace is one
    diagnostic print (the range message or the too-many-columns message),
    so it has issued no load and no pipette command. *)
Theorem detected_errors_exactly p N fc :
  ((exists c, outcome_of p N fc = inl (SystemExit c))
     <-> (N < 1 \/ 6 < N \/ (N = 6 /\ 10 < fc)))
  /\ ((exists c, outcome_of p N fc = inl (SystemExit c)) ->
      (exists msg, trace_of p N fc = [Print msg]
         /\ (msg = instances_range_msg \/ msg = too_many_columns_msg))
      /\ Forall (fun e => is_api_call e = false) (trace_of p N fc)).
Proof.
  unfold outcome_of, trace_of.
  destruct (Z_lt_le_dec N 1) as [Hlo|Hlo]; [|destruct (Z_lt_le_dec 6 N) as [Hhi|Hhi]].
  - rewrite program_invalid by lia. split; [split; [intros _; lia | intros _; exists None; reflexivity] |].
    intros _. split; [eexists; split; [reflexivity | tauto] | repeat constructor].
  - rewrite program_invalid by lia. split; [split; [intros _; lia | intros _; exists None; reflexivity] |].
    intros _. split; [eexists; split; [reflexivity | tauto] | repeat constructor].
  - destruct (Z.eq_dec N 6) as [E6|E6]; [destruct (Z_lt_le_dec 10 fc) as [Hfc|Hfc]|].
    + subst N. rewrite program_too_many_columns by lia.
      split; [split; [intros _; lia | intros _; exists None; reflexivity] |].
      intros _. split; [eexists; split; [reflexivity | tauto] | repeat constructor].
    + assert (Hx : ~ (N = 6 /\ 10 < fc)) by lia.
      destruct (le_lt_dec (Z.to_nat (fc - 1)) 11) as [Hk|Hk].
      * destruct (program_valid_in p N fc (conj Hlo Hhi) Hx Hk) as (s & _ & _ & ->).
        split; [split; [intros (c & Hc); discriminate Hc | lia] |].
        intros (c & Hc); discriminate Hc.
      * destruct (program_valid_out p N fc (conj Hlo Hhi) Hx Hk) as (s & pl & l & _ & _ & ->).
        split; [split; [intros (c & Hc); discriminate Hc | lia] |].
        intros (c & Hc); discriminate Hc.
    + assert (Hx : ~ (N = 6 /\ 10 < fc)) by lia.
      destruct (le_lt_dec (Z.to_nat (fc - 1)) 11) as [Hk|Hk].
      * destruct (program_valid_in p N fc (conj Hlo Hhi) Hx Hk) as (s & _ & _ & ->).
        split; [split; [intros (c & Hc); discriminate Hc | lia] |].
        intros (c & Hc); discriminate Hc.
      * destruct (program_valid_out p N fc (conj Hlo Hhi) Hx Hk) as (s & pl & l & _ & _ & ->).
        split; [split; [intros (c & Hc); discriminate Hc | lia] |].
        intros (c & Hc); discriminate Hc.
Qed.

(** *** C4 *)

Lemma invalid_count_exit_status_zero :
  ~ (forall p N fc, N < 1 \/ 6 < N ->
       (exists msg, In (Print msg) (trace_of p N fc))
       /\ exit_status (outcome_of p N fc) <> 0).
Proof.
  intros H.
  destruct (H source_params source_instances source_filled_columns) as (_ & Hst).
  - unfold source_instances. lia.
  - apply Hst. unfold outcome_of. rewrite program_invalid by (unfold source_instances; lia).
    reflexivity.
Qed.

(** C4 (amended): for an instance count outside 1..6 the script prints the
    diagnostic and calls [sys.exit()] without an argument, so the exit status
    is 0. *)
Theorem invalid_count_prints_and_exits p N fc :
  N < 1 \/ 6 < N ->
  trace_of p N fc = [Print instances_range_msg]
  /\ outcome_of p N fc = inl (SystemExit None)
  /\ exit_status (outcome_of p N fc) = 0.
Proof.
  intros HN. unfold trace_of, outcome_of. rewrite program_invalid by exact HN.
  repeat split.
Qed.

Lemma invalid_count_prints_and_exits_witness :
  (source_instances < 1 \/ 6 < source_instances)
  /\ trace_of source_params source_instances source_filled_columns = [Print instances_range_msg]
  /\ outcome_of source_params source_instances source_filled_columns = inl (SystemExit None)
  /\ exit_status (outcome_of source_params source_instances source_filled_columns) = 0.
Proof.
  assert (H : source_instances < 1 \/ 6 < source_instances) by (unfold source_instances; lia).
  split; [exact H|]. apply (invalid_count_prints_and_exits source_params _ _ H).
Defined.

(** *** C6 *)

(** C6: for an instance count outside 1..6 the script stops through
    [sys.exit()] without any load or pipette call. *)
Theorem invalid_count_no_api_call p N fc :
  N < 1 \/ 6 < N ->
  Forall (fun e => is_api_call e = false) (trace_of p N fc)
  /\ exists c, outcome_of p N fc = inl (SystemExit c).
Proof.
  intros HN. unfold trace_of, outcome_of. rewrite program_invalid by exact HN.
  split; [repeat constructor | exists None; reflexivity].
Qed.

Lemma invalid_count_no_api_call_witness :
  (0 < 1 \/ 6 < 0)
  /\ Forall (fun e => is_api_call e = false) (trace_of source_params 0 6)
  /\ exists c, outcome_of source_params 0 6 = inl (SystemExit c).
Proof.
  split; [lia|]. apply (invalid_count_no_api_call source_params 0 6). lia.
Defined.

(** *** Tip handling (C2) and transfers (C8) *)

(** Tip discipline, scanning the trace with: [holding] (a tip is on),
    [used] (a liquid command ran on the current tip), [asp] and [disp]
    (an aspirate, a dispense ran on the current tip).  A pick-up needs no
    tip on and a drop needs one (strict alternation from a pick-up); an
    aspirate, dispense or mix needs a tip on and must be followed by a drop
    before the next pick-up or the end; a tip serves at most one aspirate
    and one dispense (one column transfer). *)
Fixpoint tip_check (holding used asp disp : bool) (tr : list event) : bool :=
  match tr with
  | [] => negb used
  | PickUpTip :: r => negb holding && tip_check true false false false r
  | DropTip :: r => holding && tip_check false false false false r
  | Aspirate _ _ :: r => holding && negb asp && tip_check true true true disp r
  | Dispense _ _ :: r => holding && negb disp && tip_check true true asp true r
  | Mix _ _ _ _ :: r => holding && tip_check true true asp disp r
  | _ :: r => tip_check holding used asp disp r
  end.

Definition tip_discipline (tr : list event) : bool := tip_check false false false false tr.

Definition labware_eqb (a b : labware) : bool :=
  String.eqb (lw_name a) (lw_name b) && (lw_slot a =? lw_slot b).

(** [w'] is the first well of the column after [w]'s, on the same plate. *)
Definition next_column_first_well (w w' : well) : bool :=
  labware_eqb (well_labware w) (well_labware w')
  && Nat.eqb (S (well_column w)) (well_column w')
  && Nat.eqb (well_row w) 0 && Nat.eqb (well_row w') 0.

(** Every aspirate is the event just before a dispense of the same volume
    into the first well of the next column of the same plate. *)
Fixpoint aspirate_then_dispense (tr : list event) : bool :=
  match tr with
  | [] => true
  | Aspirate v w :: r =>
      match r with
      | Dispense v' w' :: _ => (v =? v') && next_column_first_well w w'
      | _ => false
      end && aspirate_then_dispense r
  | _ :: r => aspirate_then_dispense r
  end.

(** A block of events that leaves a checker where it found it. *)
Definition neutral_for (chk : list event -> bool) (b : list event) : Prop :=
  forall r, chk (b ++ r) = chk r.

Lemma neutral_app chk a b :
  neutral_for chk a -> neutral_for chk b -> neutral_for chk (a ++ b).
Proof. intros Ha Hb r. rewrite <- app_assoc, Ha, Hb. reflexivity. Qed.

Lemma neutral_concat {A} chk (f : A -> list event) l :
  (forall x, In x l -> neutral_for chk (f x)) -> neutral_for chk (List.concat (map f l)).
Proof.
  induction l as [|x l IH]; intros H r; [reflexivity|].
  simpl. apply neutral_app; [apply H; left; reflexivity|].
  apply IH. intros y Hy. apply H. right. exact Hy.
Qed.

Lemma neutral_whole chk a :
  neutral_for chk a -> chk a = chk [].
Proof. intros H. rewrite <- (app_nil_r a) at 1. apply H. Qed.

Lemma tip_check_no_pipette pre :
  Forall (fun e => is_pipette_call e = false) pre -> neutral_for tip_discipline pre.
Proof.
  induction pre as [|e pre IH]; intros H r; [reflexivity|].
  inversion H as [|? ? He Hpre]; subst.
  destruct e; try discriminate He; simpl; apply IH; exact Hpre.
Qed.

Lemma aspirate_check_no_pipette pre :
  Forall (fun e => is_pipette_call e = false) pre -> neutral_for aspirate_then_dispense pre.
Proof.
  induction pre as [|e pre IH]; intros H r; [reflexivity|].
  inversion H as [|? ? He Hpre]; subst.
  destruct e; try discriminate He; simpl; apply IH; exact Hpre.
Qed.

Lemma instance_events_tip_neutral p fc pl :
  neutral_for tip_discipline (instance_events p fc pl).
Proof.
  apply neutral_app; [intros r; reflexivity|].
  apply neutral_concat. intros j _ r. reflexivity.
Qed.

Lemma instance_events_aspirate_neutral p fc pl :
  neutral_for aspirate_then_dispense (instance_events p fc pl).
Proof.
  apply neutral_app; [intros r; reflexivity|].
  apply neutral_concat. intros j _ r. simpl.
  unfold next_column_first_well, labware_eqb. simpl.
  rewrite Z.eqb_refl, String.eqb_refl, Z.eqb_refl, Nat.eqb_refl. reflexivity.
Qed.

Lemma prefix_no_pipette p N s :
  1 <= N <= 6 ->
  Forall (fun e => is_pipette_call e = false)
    (layout_trace p N ++ [LoadInstrument (pipette_type p) "right"%string (tiprack_10X s)]).
Proof.
  intros HN. apply Forall_app. split; [apply layout_trace_no_pipette; exact HN|].
  repeat constructor.
Qed.

Lemma valid_trace_neutral chk p N fc :
  1 <= N <= 6 -> ~ (N = 6 /\ 10 < fc) -> (Z.to_nat (fc - 1) <= 11)%nat ->
  (forall pre, Forall (fun e => is_pipette_call e = false) pre -> neutral_for chk pre) ->
  (forall pl, neutral_for chk (instance_events p fc pl)) ->
  chk (trace_of p N fc) = chk [].
Proof.
  intros HN Hx Hk Hpre Hinst. unfold trace_of.
  destruct (program_valid_in p N fc HN Hx Hk) as (s & _ & _ & ->). simpl fst.
  replace (layout_trace p N ++ LoadInstrument (pipette_type p) "right"%string (tiprack_10X s)
             :: List.concat (map (instance_events p fc) (dilutionplate_10X s)))
    with ((layout_trace p N ++ [LoadInstrument (pipette_type p) "right"%string (tiprack_10X s)])
            ++ List.concat (map (instance_events p fc) (dilutionplate_10X s)))
    by (rewrite <- app_assoc; reflexivity).
  apply neutral_whole. apply neutral_app.
  - apply Hpre. apply prefix_no_pipette. exact HN.
  - apply neutral_concat. intros pl _. apply Hinst.
Qed.

(** *** C2 *)

Lemma tip_discipline_fails_past_column_12 :
  ~ (forall p N fc, 1 <= N <= 6 -> tip_discipline (trace_of p N fc) = true).
Proof.
  intros H. specialize (H source_params 2 13 ltac:(lia)).
  vm_compute in H. discriminate H.
Qed.

(** C2 (amended): for an instance count in 1..6 and at most 12 filled
    columns (the plate's column count), pick-ups and drops alternate starting
    with a pick-up, every aspirate, dispense and mix runs on a tip that is
    dropped before the next pick-up, and no tip serves two column
    transfers. *)
Theorem tip_discipline_holds p N fc :
  1 <= N <= 6 -> fc <= 12 -> tip_discipline (trace_of p N fc) = true.
Proof.
  intros HN Hfc.
  destruct (Z.eq_dec N 6) as [E6|E6]; [destruct (Z_lt_le_dec 10 fc) as [H10|H10]|].
  - subst N. unfold trace_of. rewrite program_too_many_columns by exact H10. reflexivity.
  - rewrite (valid_trace_neutral tip_discipline p N fc HN) by
      (first [lia | apply tip_check_no_pipette | apply instance_events_tip_neutral]).
    reflexivity.
  - rewrite (valid_trace_neutral tip_discipline p N fc HN) by
      (first [lia | apply tip_check_no_pipette | apply instance_events_tip_neutral]).
    reflexivity.
Qed.

Lemma tip_discipline_holds_witness :
  1 <= 3 <= 6 /\ 6 <= 12 /\ tip_discipline (trace_of source_params 3 6) = true.
Proof.
  split; [lia|]. split; [lia|]. apply (tip_discipline_holds source_params 3 6); lia.
Defined.

(** *** C8 *)

Lemma aspirate_then_dispense_fails_past_column_12 :
  ~ (forall p N fc, aspirate_then_dispense (trace_of p N fc) = true).
Proof.
  intros H. specialize (H source_params 2 13).
  vm_compute in H. discriminate H.
Qed.

(** C8 (amended): in every run with at most 12 filled columns, each aspirate
    is immediately followed by a dispense of the same volume into the first
    well of the next column of the same plate. *)
Theorem aspirate_then_dispense_holds p N fc :
  fc <= 12 -> aspirate_then_dispense (trace_of p N fc) = true.
Proof.
  intros Hfc.
  destruct (Z_lt_le_dec N 1) as [Hlo|Hlo]; [|destruct (Z_lt_le_dec 6 N) as [Hhi|Hhi]].
  - unfold trace_of. rewrite program_invalid by lia. reflexivity.
  - unfold trace_of. rewrite program_invalid by lia. reflexivity.
  - destruct (Z.eq_dec N 6) as [E6|E6]; [destruct (Z_lt_le_dec 10 fc) as [H10|H10]|].
    + subst N. unfold trace_of. rewrite program_too_many_columns by exact H10. reflexivity.
    + rewrite (valid_trace_neutral aspirate_then_dispense p N fc) by
        (first [lia | apply aspirate_check_no_pipette | apply instance_events_aspirate_neutral]).
      reflexivity.
    + rewrite (valid_trace_neutral aspirate_then_dispense p N fc) by
        (first [lia | apply aspirate_check_no_pipette | apply instance_events_aspirate_neutral]).
      reflexivity.
Qed.

Lemma aspirate_then_dispense_holds_witness :
  6 <= 12 /\ aspirate_then_dispense (trace_of source_params 3 6) = true.
Proof.
  split; [lia|]. apply (aspirate_then_dispense_holds source_params 3 6); lia.
Defined.

(** *** Grouping the pipette commands into tip cycles (C7, C10) *)

Definition pipette_calls (tr : list event) : list event := filter is_pipette_call tr.

(** Splits a stream of pipette commands into the groups run between a
    pick-up and the following drop; [None] unless the stream is a sequence
    of [PickUpTip :: group ++ [DropTip]] blocks.  [cur] is the group in
    progress, in reverse. *)
Fixpoint tip_cycles (cur : option (list event)) (tr : list event) : option (list (list event)) :=
  match tr with
  | [] => match cur with None => Some [] | Some _ => None end
  | PickUpTip :: r => match cur with None => tip_cycles (Some []) r | Some _ => None end
  | DropTip :: r =>
      match cur with
      | Some g => match tip_cycles None r with Some gs => Some (rev g :: gs) | None => None end
      | None => None
      end
  | e :: r => match cur with Some g => tip_cycles (Some (e :: g)) r | None => None end
  end.

Definition is_mix_only_group (g : list event) : bool :=
  match g with [Mix _ _ (Some _) _] => true | _ => false end.

Definition mix_only_target (g : list event) : option well :=
  match g with [Mix _ _ w _] => w | _ => None end.

Definition is_transfer_group (g : list event) : bool :=
  match g with [Aspirate _ _; Dispense _ _; Mix _ _ None _] => true | _ => false end.

(** *** C7 *)

(** C7: with 3 instances and 6 filled columns the run ends normally and its
    pipette commands are 18 pick-up/drop cycles: 3 mix-only cycles, on the
    first well of column 0 of each of the 3 plates in turn, and 15
    aspirate/dispense/mix transfers. *)
Theorem three_instances_six_columns p :
  exists s, outcome_of p 3 6 = inr (tt, s)
    /\ length (dilutionplate_10X s) = 3%nat
    /\ match tip_cycles None (pipette_calls (trace_of p 3 6)) with
       | Some gs =>
           length gs = 18%nat
           /\ length (filter is_mix_only_group gs) = 3%nat
           /\ length (filter is_transfer_group gs) = 15%nat
           /\ map mix_only_target (filter is_mix_only_group gs)
              = map (fun pl => Some (mk_well pl 0 0)) (dilutionplate_10X s)
       | None => False
       end.
Proof.
  destruct (program_valid_in p 3 6 ltac:(lia) ltac:(lia) ltac:(cbv; lia))
    as (s & Hst & Hlen & Hp).
  exists s. unfold outcome_of, trace_of. rewrite Hp.
  cbv in Hst. injection Hst as <-.
  vm_compute. repeat split.
Qed.

(** *** C10 *)

Lemma filter_no_pipette pre :
  Forall (fun e => is_pipette_call e = false) pre -> filter is_pipette_call pre = [].
Proof.
  induction pre as [|e pre IH]; intros H; [reflexivity|].
  inversion H as [|? ? He Hpre]; subst. simpl. rewrite He. apply IH. exact Hpre.
Qed.

Lemma filter_first_columns p pls :
  filter is_pipette_call (List.concat (map (first_column_events p) pls))
  = List.concat (map (first_column_events p) pls).
Proof.
  induction pls as [|pl pls IH]; [reflexivity|]. simpl. rewrite IH. reflexivity.
Qed.

(** C10: with an instance count in 1..6 and at most one filled column, the
    run ends normally and each instance gets exactly a pick-up, a mix of the
    first well of column 0 of its plate, and a drop: no aspirate, no
    dispense. *)
Theorem few_columns_mix_only p N fc :
  1 <= N <= 6 -> fc <= 1 ->
  exists s, outcome_of p N fc = inr (tt, s)
    /\ Z.of_nat (length (dilutionplate_10X s)) = N
    /\ pipette_calls (trace_of p N fc)
       = List.concat (map (fun pl =>
           [PickUpTip;
            Mix (mix_repetitions p) (mix_volume p) (Some (mk_well pl 0 0)) default_mix_rate;
            DropTip]) (dilutionplate_10X s)).
Proof.
  intros HN Hfc.
  assert (Hk : Z.to_nat (fc - 1) = 0%nat) by lia.
  destruct (program_valid_in p N fc HN ltac:(lia) ltac:(lia)) as (s & _ & Hlen & Hp).
  exists s. unfold outcome_of, trace_of. rewrite Hp. simpl fst. simpl snd.
  split; [reflexivity|]. split; [lia|].
  assert (Hi : forall pl, instance_events p fc pl = first_column_events p pl).
  { intros pl. unfold instance_events, range. rewrite Hk. apply app_nil_r. }
  rewrite (map_ext _ _ Hi).
  replace (layout_trace p N ++ LoadInstrument (pipette_type p) "right"%string (tiprack_10X s)
             :: List.concat (map (first_column_events p) (dilutionplate_10X s)))
    with ((layout_trace p N ++ [LoadInstrument (pipette_type p) "right"%string (tiprack_10X s)])
            ++ List.concat (map (first_column_events p) (dilutionplate_10X s)))
    by (rewrite <- app_assoc; reflexivity).
  unfold pipette_calls. rewrite filter_app, filter_no_pipette by (apply prefix_no_pipette; exact HN).
  apply filter_first_columns.
Qed.

Lemma few_columns_mix_only_witness :
  1 <= 1 <= 6 /\ 1 <= 1 /\
  exists s, outcome_of source_params 1 1 = inr (tt, s)
    /\ Z.of_nat (length (dilutionplate_10X s)) = 1
    /\ pipette_calls (trace_of source_params 1 1)
       = List.concat (map (fun pl =>
           [PickUpTip;
            Mix (mix_repetitions source_params) (mix_volume source_params)
              (Some (mk_well pl 0 0)) default_mix_rate;
            DropTip]) (dilutionplate_10X s)).
Proof.
  split; [lia|]. split; [lia|]. apply (few_columns_mix_only source_params 1 1); lia.
Defined.

(** *** C9 *)

(** The same parameters with another [mix_rate]. *)
Definition with_mix_rate (p : params) (q : Q) : params :=
  mk_params (tiprack_type p) (plate_type p) (pipette_type p) (dilution_volume p)
    (mix_repetitions p) (mix_volume p) q.

(** Forgets the rate argument of a mix issued without a location. *)
Definition erase_column_mix_rate (e : event) : event :=
  match e with
  | Mix r v None _ => Mix r v None default_mix_rate
  | _ => e
  end.

Fixpoint last_event (prev : option event) (tr : list event) : option event :=
  match tr with [] => prev | e :: r => last_event (Some e) r end.

(** A mix with a location is the column-0 mix at the default rate; a mix
    without a location runs at [mix_rate] right after a dispense. *)
Definition mix_call_ok (p : params) (prev : option event) (e : event) : Prop :=
  match e with
  | Mix _ _ (Some w) q => q = default_mix_rate /\ well_column w = 0%nat /\ well_row w = 0%nat
  | Mix _ _ None q => q = mix_rate p /\ exists v w, prev = Some (Dispense v w)
  | _ => True
  end.

Fixpoint mix_calls_ok (p : params) (prev : option event) (tr : list event) : Prop :=
  match tr with
  | [] => True
  | e :: r => mix_call_ok p prev e /\ mix_calls_ok p (Some e) r
  end.

Lemma layout_state_rate p q N : layout_state (with_mix_rate p q) N = layout_state p N.
Proof. reflexivity. Qed.

Lemma layout_trace_rate p q N : layout_trace (with_mix_rate p q) N = layout_trace p N.
Proof. reflexivity. Qed.

Lemma erase_concat {A} (f g : A -> list event) l :
  (forall x, map erase_column_mix_rate (f x) = map erase_column_mix_rate (g x)) ->
  map erase_column_mix_rate (List.concat (map f l))
  = map erase_column_mix_rate (List.concat (map g l)).
Proof.
  intros H. induction l as [|x l IH]; [reflexivity|].
  simpl. rewrite !map_app, H, IH. reflexivity.
Qed.

Lemma erase_instance p q fc pl :
  map erase_column_mix_rate (instance_events p fc pl)
  = map erase_column_mix_rate (instance_events (with_mix_rate p q) fc pl).
Proof.
  unfold instance_events. rewrite !map_app. f_equal.
  apply erase_concat. intros j. reflexivity.
Qed.

Lemma erase_overflow p q pl :
  map erase_column_mix_rate (instance_overflow_events p pl)
  = map erase_column_mix_rate (instance_overflow_events (with_mix_rate p q) pl).
Proof.
  unfold instance_overflow_events. rewrite !map_app.
  rewrite (erase_concat (transfer_events p pl) (transfer_events (with_mix_rate p q) pl))
    by reflexivity.
  reflexivity.
Qed.

Lemma mix_calls_ok_app p prev a b :
  mix_calls_ok p prev (a ++ b) <-> mix_calls_ok p prev a /\ mix_calls_ok p (last_event prev a) b.
Proof.
  revert prev. induction a as [|e a IH]; intros prev; simpl.
  - tauto.
  - rewrite IH. tauto.
Qed.

Definition mix_ok_block (p : params) (b : list event) : Prop :=
  forall prev, mix_calls_ok p prev b.

Lemma mix_ok_app p a b : mix_ok_block p a -> mix_ok_block p b -> mix_ok_block p (a ++ b).
Proof. intros Ha Hb prev. apply mix_calls_ok_app. split; [apply Ha | apply Hb]. Qed.

Lemma mix_ok_concat {A} p (f : A -> list event) l :
  (forall x, mix_ok_block p (f x)) -> mix_ok_block p (List.concat (map f l)).
Proof.
  intros H. induction l as [|x l IH]; [intros prev; exact I|].
  simpl. apply mix_ok_app; [apply H | exact IH].
Qed.

Lemma mix_ok_no_pipette p pre :
  Forall (fun e => is_pipette_call e = false) pre -> mix_ok_block p pre.
Proof.
  induction pre as [|e pre IH]; intros H prev; [exact I|].
  inversion H as [|? ? He Hpre]; subst. split.
  - destruct e; try discriminate He; exact I.
  - apply IH. exact Hpre.
Qed.

Lemma mix_ok_first_column p pl : mix_ok_block p (first_column_events p pl).
Proof. intros prev. simpl. repeat split. Qed.

Lemma mix_ok_transfer p pl j : mix_ok_block p (transfer_events p pl j).
Proof. intros prev. simpl. repeat split. eauto. Qed.

Lemma mix_ok_instance p fc pl : mix_ok_block p (instance_events p fc pl).
Proof.
  apply mix_ok_app; [apply mix_ok_first_column|].
  apply mix_ok_concat. apply mix_ok_transfer.
Qed.

Lemma mix_ok_overflow p pl : mix_ok_block p (instance_overflow_events p pl).
Proof.
  apply mix_ok_app; [apply mix_ok_first_column|].
  apply mix_ok_app; [apply mix_ok_concat; apply mix_ok_transfer|].
  intros prev. simpl. repeat split.
Qed.

Lemma valid_trace_split p N s rest :
  layout_trace p N ++ LoadInstrument (pipette_type p) "right"%string (tiprack_10X s) :: rest
  = (layout_trace p N ++ [LoadInstrument (pipette_type p) "right"%string (tiprack_10X s)]) ++ rest.
Proof. rewrite <- app_assoc. reflexivity. Qed.

(** C9: two runs whose parameters differ only in [mix_rate] issue the same
    commands and end the same way, up to the rate of the mixes issued
    without a location; every mix with a location is the column-0 mix at
    the default rate, and every mix without a location runs at [mix_rate]
    directly after a dispense. *)
Theorem mix_rate_only_changes_column_mix p q N fc :
  map erase_column_mix_rate (trace_of p N fc)
  = map erase_column_mix_rate (trace_of (with_mix_rate p q) N fc)
  /\ outcome_of p N fc = outcome_of (with_mix_rate p q) N fc
  /\ mix_calls_ok p None (trace_of p N fc).
Proof.
  unfold trace_of, outcome_of.
  destruct (Z_lt_le_dec N 1) as [Hlo|Hlo]; [|destruct (Z_lt_le_dec 6 N) as [Hhi|Hhi]].
  - rewrite !program_invalid by lia. repeat split.
  - rewrite !program_invalid by lia. repeat split.
  - assert (HN : 1 <= N <= 6) by lia.
    destruct (Z.eq_dec N 6) as [E6|E6]; [destruct (Z_lt_le_dec 10 fc) as [H10|H10]|];
      [subst N; rewrite !program_too_many_columns by exact H10; repeat split| |];
      assert (Hx : ~ (N = 6 /\ 10 < fc)) by lia;
      (destruct (le_lt_dec (Z.to_nat (fc - 1)) 11) as [Hk|Hk]).
    all: first
      [ destruct (program_valid_in p N fc HN Hx Hk) as (s & Hst & _ & Hp);
        destruct (program_valid_in (with_mix_rate p q) N fc HN Hx Hk) as (s' & Hst' & _ & Hp');
        rewrite layout_state_rate, Hst in Hst'; injection Hst' as <-;
        rewrite Hp, Hp', layout_trace_rate; simpl fst; simpl snd;
        split; [rewrite !map_app; simpl; f_equal; f_equal; apply erase_concat;
                intros pl; apply erase_instance|];
        split; [reflexivity|];
        rewrite valid_trace_split; apply mix_ok_app;
        [apply mix_ok_no_pipette, prefix_no_pipette, HN
        | apply mix_ok_concat, mix_ok_instance]
      | destruct (program_valid_out p N fc HN Hx Hk) as (s & pl & l & Hst & Hs & Hp);
        destruct (program_valid_out (with_mix_rate p q) N fc HN Hx Hk)
          as (s' & pl' & l' & Hst' & Hs' & Hp');
        rewrite layout_state_rate, Hst in Hst'; injection Hst' as <-;
        rewrite Hs in Hs'; injection Hs' as <- <-;
        rewrite Hp, Hp', layout_trace_rate; simpl fst; simpl snd;
        split; [rewrite !map_app; simpl; f_equal; f_equal; apply erase_overflow|];
        split; [reflexivity|];
        rewrite valid_trace_split; apply mix_ok_app;
        [apply mix_ok_no_pipette, prefix_no_pipette, HN
        | apply mix_ok_overflow] ].
Qed.

(** ** Further properties of the script *)

Lemma how_many_invalid_at N s :
  N < 1 \/ 6 < N -> how_many N s = ([Print instances_range_msg], inr ("default"%string, s)).
Proof.
  intros HN. unfold how_many.
  repeat match goal with
         | |- context [?a =? ?b] => replace (a =? b) with false by (symmetry; apply Z.eqb_neq; lia)
         end.
  reflexivity.
Qed.

(** [getattr(switch, how_many(n), 'default')()] from any state: it succeeds
    exactly for counts 1..6, and otherwise stops with [sys.exit()]; the
    fallback of [getattr] (calling the string ['default']) is never reached. *)
Theorem select_layout_outcome p N s :
  match snd (select_layout p N s) with
  | inr _ => 1 <= N <= 6
  | inl e => e = SystemExit None /\ (N < 1 \/ 6 < N)
  end.
Proof.
  destruct (Z_lt_le_dec N 1) as [Hlo|Hlo]; [|destruct (Z_lt_le_dec 6 N) as [Hhi|Hhi]].
  - unfold select_layout. rewrite (bind_inr _ _ _ _ _ _ (how_many_invalid_at N s ltac:(lia))).
    simpl. split; [reflexivity | lia].
  - unfold select_layout. rewrite (bind_inr _ _ _ _ _ _ (how_many_invalid_at N s ltac:(lia))).
    simpl. split; [reflexivity | lia].
  - destruct (count_cases N (conj Hlo Hhi)) as [ -> | [ -> | [ -> | [ -> | [ -> | -> ]]]]];
      cbv -[Z.le]; lia.
Qed.

Definition is_load (e : event) : bool :=
  match e with LoadLabware _ _ => true | _ => false end.

Lemma Forall_concat_map {A} (P : event -> Prop) (g : A -> list event) l :
  (forall x, In x l -> Forall P (g x)) -> Forall P (List.concat (map g l)).
Proof.
  induction l as [|x l IH]; intros H; [constructor|].
  simpl. apply Forall_app. split; [apply H; left; reflexivity|].
  apply IH. intros y Hy. apply H. right. exact Hy.
Qed.

Lemma layout_trace_loads p N :
  1 <= N <= 6 -> Forall (fun e => is_load e = true) (layout_trace p N).
Proof.
  intros HN.
  destruct (count_cases N HN) as [ -> | [ -> | [ -> | [ -> | [ -> | -> ]]]]];
    cbv; repeat constructor.
Qed.

Lemma instance_events_pipette p fc pl :
  Forall (fun e => is_pipette_call e = true) (instance_events p fc pl).
Proof.
  apply Forall_app. split; [repeat constructor|].
  apply Forall_concat_map. intros j _. repeat constructor.
Qed.

Lemma overflow_events_pipette p pl :
  Forall (fun e => is_pipette_call e = true) (instance_overflow_events p pl).
Proof.
  apply Forall_app. split; [repeat constructor|].
  apply Forall_app. split; [|repeat constructor].
  apply Forall_concat_map. intros j _. repeat constructor.
Qed.

(** Once the checks pass, the run loads labware only, then attaches the
    pipette (once, on the right mount, with the registered tipracks), then
    issues pipette commands only. *)
Theorem setup_precedes_pipetting p N fc :
  1 <= N <= 6 -> ~ (N = 6 /\ 10 < fc) ->
  exists s pre post,
    layout_state p N = Some s
    /\ trace_of p N fc = pre ++ LoadInstrument (pipette_type p) "right"%string (tiprack_10X s) :: post
    /\ Forall (fun e => is_load e = true) pre
    /\ Forall (fun e => is_pipette_call e = true) post.
Proof.
  intros HN Hx. unfold trace_of.
  destruct (le_lt_dec (Z.to_nat (fc - 1)) 11) as [Hk|Hk].
  - destruct (program_valid_in p N fc HN Hx Hk) as (s & Hst & _ & ->).
    exists s, (layout_trace p N), (List.concat (map (instance_events p fc) (dilutionplate_10X s))).
    split; [exact Hst|]. split; [reflexivity|]. split; [apply layout_trace_loads; exact HN|].
    apply Forall_concat_map. intros pl _. apply instance_events_pipette.
  - destruct (program_valid_out p N fc HN Hx Hk) as (s & pl & l & Hst & _ & ->).
    exists s, (layout_trace p N), (instance_overflow_events p pl).
    split; [exact Hst|]. split; [reflexivity|]. split; [apply layout_trace_loads; exact HN|].
    apply overflow_events_pipette.
Qed.

Lemma setup_precedes_pipetting_witness :
  1 <= 3 <= 6 /\ ~ (3 = 6 /\ 10 < 6) /\
  exists s pre post,
    layout_state source_params 3 = Some s
    /\ trace_of source_params 3 6
       = pre ++ LoadInstrument (pipette_type source_params) "right"%string (tiprack_10X s) :: post
    /\ Forall (fun e => is_load e = true) pre
    /\ Forall (fun e => is_pipette_call e = true) post.
Proof.
  split; [lia|]. split; [lia|]. apply (setup_precedes_pipetting source_params 3 6); lia.
Defined.

(** *** Command counts and tip supply *)

Definition is_pick (e : event) : bool := match e with PickUpTip => true | _ => false end.
Definition is_drop (e : event) : bool := match e with DropTip => true | _ => false end.
Definition is_aspirate (e : event) : bool := match e with Aspirate _ _ => true | _ => false end.
Definition is_dispense (e : event) : bool := match e with Dispense _ _ => true | _ => false end.
Definition is_mix (e : event) : bool := match e with Mix _ _ _ _ => true | _ => false end.

Definition count_calls (f : event -> bool) (tr : list event) : nat := length (filter f tr).

Lemma count_concat_const {A} f (g : A -> list event) l c :
  (forall x, In x l -> count_calls f (g x) = c) ->
  count_calls f (List.concat (map g l)) = (length l * c)%nat.
Proof.
  unfold count_calls. induction l as [|x l IH]; intros H; [reflexivity|].
  simpl. rewrite filter_app, length_app, H by (left; reflexivity).
  rewrite IH by (intros y Hy; apply H; right; exact Hy). lia.
Qed.

Lemma filter_prefix_nil f pre :
  (forall e, f e = true -> is_pipette_call e = true) ->
  Forall (fun e => is_pipette_call e = false) pre -> filter f pre = [].
Proof.
  intros Hf. induction pre as [|e pre IH]; intros H; [reflexivity|].
  inversion H as [|? ? He Hpre]; subst. simpl.
  destruct (f e) eqn:E; [rewrite (Hf e E) in He; discriminate He|]. apply IH. exact Hpre.
Qed.

Lemma count_valid_run f c1 c2 p N fc :
  1 <= N <= 6 -> ~ (N = 6 /\ 10 < fc) -> (Z.to_nat (fc - 1) <= 11)%nat ->
  (forall e, f e = true -> is_pipette_call e = true) ->
  (forall pl, count_calls f (first_column_events p pl) = c1) ->
  (forall pl j, count_calls f (transfer_events p pl j) = c2) ->
  count_calls f (trace_of p N fc) = (Z.to_nat N * (c1 + Z.to_nat (fc - 1) * c2))%nat.
Proof.
  intros HN Hx Hk Hf H1 H2. unfold trace_of.
  destruct (program_valid_in p N fc HN Hx Hk) as (s & _ & Hlen & ->). simpl fst.
  rewrite valid_trace_split. unfold count_calls.
  rewrite filter_app, (filter_prefix_nil f) by (first [exact Hf | apply prefix_no_pipette; exact HN]).
  simpl app. fold (count_calls f (List.concat (map (instance_events p fc) (dilutionplate_10X s)))).
  rewrite (count_concat_const f _ _ (c1 + Z.to_nat (fc - 1) * c2)), Hlen; [reflexivity|].
  intros pl _. unfold instance_events, count_calls. rewrite filter_app, length_app.
  fold (count_calls f (first_column_events p pl)). rewrite H1.
  fold (count_calls f (List.concat (map (transfer_events p pl) (range (fc - 1))))).
  rewrite (count_concat_const f _ _ c2) by (intros j _; apply H2).
  unfold range. rewrite length_seq. reflexivity.
Qed.

Ltac pipette_pred := intros [] H; first [discriminate H | reflexivity].

(** With a valid count, the checks passed and at most 12 columns, each of
    the N instances uses 1 + (filled_columns - 1) tips (clamped at 0 columns
    for filled_columns <= 1): as many pick-ups, drops and mixes, and
    filled_columns - 1 aspirates and dispenses. *)
Theorem command_counts p N fc :
  1 <= N <= 6 -> ~ (N = 6 /\ 10 < fc) -> fc <= 12 ->
  count_calls is_pick (trace_of p N fc) = (Z.to_nat N * (1 + Z.to_nat (fc - 1)))%nat
  /\ count_calls is_drop (trace_of p N fc) = (Z.to_nat N * (1 + Z.to_nat (fc - 1)))%nat
  /\ count_calls is_mix (trace_of p N fc) = (Z.to_nat N * (1 + Z.to_nat (fc - 1)))%nat
  /\ count_calls is_aspirate (trace_of p N fc) = (Z.to_nat N * Z.to_nat (fc - 1))%nat
  /\ count_calls is_dispense (trace_of p N fc) = (Z.to_nat N * Z.to_nat (fc - 1))%nat.
Proof.
  intros HN Hx Hfc. assert (Hk : (Z.to_nat (fc - 1) <= 11)%nat) by lia.
  split; [rewrite (count_valid_run is_pick 1 1) by (first [exact HN | exact Hx | exact Hk
          | pipette_pred | reflexivity | intros; reflexivity]); lia|].
  split; [rewrite (count_valid_run is_drop 1 1) by (first [exact HN | exact Hx | exact Hk
          | pipette_pred | reflexivity | intros; reflexivity]); lia|].
  split; [rewrite (count_valid_run is_mix 1 1) by (first [exact HN | exact Hx | exact Hk
          | pipette_pred | reflexivity | intros; reflexivity]); lia|].
  split; [rewrite (count_valid_run is_aspirate 0 1) by (first [exact HN | exact Hx | exact Hk
          | pipette_pred | reflexivity | intros; reflexivity]); lia|].
  rewrite (count_valid_run is_dispense 0 1) by (first [exact HN | exact Hx | exact Hk
          | pipette_pred | reflexivity | intros; reflexivity]); lia.
Qed.

Lemma command_counts_witness :
  1 <= 4 <= 6 /\ ~ (4 = 6 /\ 10 < 8) /\ 8 <= 12 /\
  count_calls is_pick (trace_of source_params 4 8) = (Z.to_nat 4 * (1 + Z.to_nat (8 - 1)))%nat
  /\ count_calls is_drop (trace_of source_params 4 8) = (Z.to_nat 4 * (1 + Z.to_nat (8 - 1)))%nat
  /\ count_calls is_mix (trace_of source_params 4 8) = (Z.to_nat 4 * (1 + Z.to_nat (8 - 1)))%nat
  /\ count_calls is_aspirate (trace_of source_params 4 8) = (Z.to_nat 4 * Z.to_nat (8 - 1))%nat
  /\ count_calls is_dispense (trace_of source_params 4 8) = (Z.to_nat 4 * Z.to_nat (8 - 1))%nat.
Proof.
  split; [lia|]. split; [lia|]. split; [lia|]. apply (command_counts source_params 4 8); lia.
Defined.

Lemma layout_tiprack_count p N s :
  1 <= N <= 6 -> layout_state p N = Some s ->
  length (tiprack_10X s) = Nat.min (Z.to_nat N) 5.
Proof.
  intros HN Hs.
  destruct (count_cases N HN) as [ -> | [ -> | [ -> | [ -> | [ -> | -> ]]]]];
    cbv in Hs; injection Hs as <-; reflexivity.
Qed.

(** Tip supply: whenever the run passes its checks and fills at most 12
    columns, it picks up at most 12 tips (one 8-tip column of a 96-tip rack
    each) per tiprack handed to the pipette.  For 6 instances (5 tipracks)
    this is what the module-level limit of 10 columns ensures. *)
Theorem tip_pickups_within_tipracks p N fc :
  1 <= N <= 6 -> ~ (N = 6 /\ 10 < fc) -> fc <= 12 ->
  exists s, layout_state p N = Some s
    /\ (count_calls is_pick (trace_of p N fc) <= 12 * length (tiprack_10X s))%nat.
Proof.
  intros HN Hx Hfc. assert (Hk : (Z.to_nat (fc - 1) <= 11)%nat) by lia.
  destruct (program_valid_in p N fc HN Hx Hk) as (s & Hst & _ & _).
  exists s. split; [exact Hst|].
  rewrite (layout_tiprack_count p N s HN Hst).
  rewrite (count_valid_run is_pick 1 1) by (first [exact HN | exact Hx | exact Hk
          | pipette_pred | reflexivity | intros; reflexivity]).
  destruct (count_cases N HN) as [ -> | [ -> | [ -> | [ -> | [ -> | -> ]]]]];
    simpl Z.to_nat; simpl Nat.min; lia.
Qed.

Lemma tip_pickups_within_tipracks_witness :
  1 <= 6 <= 6 /\ ~ (6 = 6 /\ 10 < 10) /\ 10 <= 12 /\
  exists s, layout_state source_params 6 = Some s
    /\ (count_calls is_pick (trace_of source_params 6 10) <= 12 * length (tiprack_10X s))%nat.
Proof.
  split; [lia|]. split; [lia|]. split; [lia|]. apply (tip_pickups_within_tipracks source_params 6 10); lia.
Defined.

(** *** Wells addressed *)

Definition aspirate_wells (tr : list event) : list well :=
  flat_map (fun e => match e with Aspirate _ w => [w] | _ => [] end) tr.

Definition dispense_wells (tr : list event) : list well :=
  flat_map (fun e => match e with Dispense _ w => [w] | _ => [] end) tr.

(** Wells of the mixes issued with a location. *)
Definition mix_wells (tr : list event) : list well :=
  flat_map (fun e => match e with Mix _ _ (Some w) _ => [w] | _ => [] end) tr.

Lemma flat_map_concat_map {A B} (h : event -> list B) (g : A -> list event) l :
  flat_map h (List.concat (map g l)) = flat_map (fun x => flat_map h (g x)) l.
Proof.
  induction l as [|x l IH]; [reflexivity|]. simpl. rewrite flat_map_app, IH. reflexivity.
Qed.

Lemma flat_map_prefix_nil {B} (h : event -> list B) pre :
  (forall e, is_pipette_call e = false -> h e = []) ->
  Forall (fun e => is_pipette_call e = false) pre -> flat_map h pre = [].
Proof.
  intros Hh. induction pre as [|e pre IH]; intros H; [reflexivity|].
  inversion H as [|? ? He Hpre]; subst. simpl. rewrite (Hh e He), IH by exact Hpre. reflexivity.
Qed.

Lemma flat_map_singleton {A B} (g : A -> list B) (w : A -> B) l :
  (forall x, g x = [w x]) -> flat_map g l = map w l.
Proof.
  intros H. induction l as [|x l IH]; [reflexivity|]. simpl. rewrite H, IH. reflexivity.
Qed.

Lemma flat_map_nil_fun {A B} (l : list A) : flat_map (fun _ => @nil B) l = [].
Proof. induction l as [|x l IH]; [reflexivity | exact IH]. Qed.

Lemma flat_map_valid_run {B} (h : event -> list B) p N fc :
  1 <= N <= 6 -> ~ (N = 6 /\ 10 < fc) -> (Z.to_nat (fc - 1) <= 11)%nat ->
  (forall e, is_pipette_call e = false -> h e = []) ->
  exists s, layout_state p N = Some s
    /\ flat_map h (trace_of p N fc)
       = flat_map (fun pl => flat_map h (first_column_events p pl)
                             ++ flat_map (fun j => flat_map h (transfer_events p pl j))
                                  (range (fc - 1)))
           (dilutionplate_10X s).
Proof.
  intros HN Hx Hk Hh. unfold trace_of.
  destruct (program_valid_in p N fc HN Hx Hk) as (s & Hst & _ & ->).
  exists s. split; [exact Hst|]. simpl fst. rewrite valid_trace_split, flat_map_app.
  rewrite (flat_map_prefix_nil h) by (first [exact Hh | apply prefix_no_pipette; exact HN]).
  simpl app. rewrite flat_map_concat_map. apply flat_map_ext. intros pl.
  unfold instance_events. rewrite flat_map_app, flat_map_concat_map. reflexivity.
Qed.

Ltac non_pipette_nil := intros [] H; first [discriminate H | reflexivity].

(** Each instance works on its own plate, in registration order, and only
    on the first well (row A) of its columns: one mix in column 0 per plate,
    aspirates from columns 0 .. filled_columns-2 and dispenses into columns
    1 .. filled_columns-1.  No tiprack well is ever addressed. *)
Theorem plate_wells_used p N fc :
  1 <= N <= 6 -> ~ (N = 6 /\ 10 < fc) -> fc <= 12 ->
  exists s, layout_state p N = Some s
    /\ mix_wells (trace_of p N fc) = map (fun pl => mk_well pl 0 0) (dilutionplate_10X s)
    /\ aspirate_wells (trace_of p N fc)
       = flat_map (fun pl => map (fun j => mk_well pl j 0) (range (fc - 1))) (dilutionplate_10X s)
    /\ dispense_wells (trace_of p N fc)
       = flat_map (fun pl => map (fun j => mk_well pl (S j) 0) (range (fc - 1)))
           (dilutionplate_10X s).
Proof.
  intros HN Hx Hfc. assert (Hk : (Z.to_nat (fc - 1) <= 11)%nat) by lia.
  destruct (flat_map_valid_run (fun e => match e with Mix _ _ (Some w) _ => [w] | _ => [] end)
              p N fc HN Hx Hk ltac:(non_pipette_nil)) as (s & Hst & Hm).
  destruct (flat_map_valid_run (fun e => match e with Aspirate _ w => [w] | _ => [] end)
              p N fc HN Hx Hk ltac:(non_pipette_nil)) as (s1 & Hst1 & Ha).
  destruct (flat_map_valid_run (fun e => match e with Dispense _ w => [w] | _ => [] end)
              p N fc HN Hx Hk ltac:(non_pipette_nil)) as (s2 & Hst2 & Hd).
  rewrite Hst in Hst1, Hst2. injection Hst1 as <-. injection Hst2 as <-.
  exists s. split; [exact Hst|]. unfold mix_wells, aspirate_wells, dispense_wells.
  rewrite Hm, Ha, Hd. split; [|split].
  - apply flat_map_singleton. intros pl. simpl. rewrite flat_map_nil_fun. reflexivity.
  - apply flat_map_ext. intros pl. simpl. apply flat_map_singleton. intros j. reflexivity.
  - apply flat_map_ext. intros pl. simpl. apply flat_map_singleton. intros j. reflexivity.
Qed.

Lemma plate_wells_used_witness :
  1 <= 2 <= 6 /\ ~ (2 = 6 /\ 10 < 4) /\ 4 <= 12 /\
  exists s, layout_state source_params 2 = Some s
    /\ mix_wells (trace_of source_params 2 4)
       = map (fun pl => mk_well pl 0 0) (dilutionplate_10X s)
    /\ aspirate_wells (trace_of source_params 2 4)
       = flat_map (fun pl => map (fun j => mk_well pl j 0) (range (4 - 1))) (dilutionplate_10X s)
    /\ dispense_wells (trace_of source_params 2 4)
       = flat_map (fun pl => map (fun j => mk_well pl (S j) 0) (range (4 - 1)))
           (dilutionplate_10X s).
Proof.
  split; [lia|]. split; [lia|]. split; [lia|]. apply (plate_wells_used source_params 2 4); lia.
Defined.

(** *** More columns than the plate has *)

(** With two to six instances past the checks (so at least two tipracks,
    24 column pick-ups of tips, are registered with the pipette) and 13 or
    more columns to fill, the first instance's transfer into column 12
    fails: the run raises
    [IndexError] (exit status 1) right after aspirating column 11 of the
    first registered plate, with that tip still on (13 pick-ups, 12 drops);
    no other plate is touched. *)
Theorem column_overflow_stops p N fc :
  2 <= N <= 6 -> ~ (N = 6 /\ 10 < fc) -> 13 <= fc ->
  exists s pl rest pre,
    layout_state p N = Some s
    /\ dilutionplate_10X s = pl :: rest
    /\ (13 <= 12 * length (tiprack_10X s))%nat
    /\ outcome_of p N fc = inl IndexError
    /\ exit_status (outcome_of p N fc) = 1
    /\ trace_of p N fc = pre ++ [Aspirate (dilution_volume p) (mk_well pl 11 0)]
    /\ count_calls is_pick (trace_of p N fc) = 13%nat
    /\ count_calls is_drop (trace_of p N fc) = 12%nat
    /\ Forall (fun w => well_labware w = pl)
         (mix_wells (trace_of p N fc) ++ aspirate_wells (trace_of p N fc)
          ++ dispense_wells (trace_of p N fc)).
Proof.
  intros HN2 Hx Hfc. assert (HN : 1 <= N <= 6) by lia.
  assert (Hk : (12 <= Z.to_nat (fc - 1))%nat) by lia.
  destruct (program_valid_out p N fc HN Hx Hk) as (s & pl & rest & Hst & Hs & Hp).
  set (P := layout_trace p N ++ [LoadInstrument (pipette_type p) "right"%string (tiprack_10X s)]).
  assert (HP : Forall (fun e => is_pipette_call e = false) P)
    by (apply prefix_no_pipette; exact HN).
  assert (Ht : trace_of p N fc = P ++ instance_overflow_events p pl)
    by (unfold trace_of; rewrite Hp; simpl fst; apply valid_trace_split).
  exists s, pl, rest,
    (P ++ first_column_events p pl ++ List.concat (map (transfer_events p pl) (seq 0 11))
       ++ [PickUpTip]).
  split; [exact Hst|]. split; [exact Hs|].
  split; [rewrite (layout_tiprack_count p N s HN Hst); lia|].
  split; [unfold outcome_of; rewrite Hp; reflexivity|].
  split; [unfold outcome_of; rewrite Hp; reflexivity|].
  rewrite Ht. split.
  { unfold instance_overflow_events. rewrite <- !app_assoc. reflexivity. }
  unfold count_calls, mix_wells, aspirate_wells, dispense_wells.
  rewrite !filter_app, !flat_map_app, !(filter_prefix_nil _ P) by (first [pipette_pred | exact HP]).
  rewrite !(flat_map_prefix_nil _ P) by (first [non_pipette_nil | exact HP]).
  split; [reflexivity|]. split; [reflexivity|].
  cbv -[well_labware]. repeat constructor.
Qed.

Lemma column_overflow_stops_witness :
  2 <= 2 <= 6 /\ ~ (2 = 6 /\ 10 < 13) /\ 13 <= 13 /\
  exists s pl rest pre,
    layout_state source_params 2 = Some s
    /\ dilutionplate_10X s = pl :: rest
    /\ (13 <= 12 * length (tiprack_10X s))%nat
    /\ outcome_of source_params 2 13 = inl IndexError
    /\ exit_status (outcome_of source_params 2 13) = 1
    /\ trace_of source_params 2 13
       = pre ++ [Aspirate (dilution_volume source_params) (mk_well pl 11 0)]
    /\ count_calls is_pick (trace_of source_params 2 13) = 13%nat
    /\ count_calls is_drop (trace_of source_params 2 13) = 12%nat
    /\ Forall (fun w => well_labware w = pl)
         (mix_wells (trace_of source_params 2 13) ++ aspirate_wells (trace_of source_params 2 13)
          ++ dispense_wells (trace_of source_params 2 13)).
Proof.
  split; [lia|]. split; [lia|]. split; [lia|]. apply (column_overflow_stops source_params 2 13); lia.
Defined.
